(** * Lab1: crossing an RDF/XML vessel list with a CSV list of IMO codes

    Shallow embedding of [Lab1/cross_vessel_list_with_imo_skeleton.py]
    ([get_text], [extract_imo], [extract_ship_properties]) and the
    properties of it that the specification talks about.

    Conventions of the embedding:
    - a Python [str] is the list of its Unicode code points;
    - a minidom tree is an inductive [node];
    - [open] + [csv.reader] and [xml.dom.minidom.parse] are library
      calls on the file system: a [FileSystem] gives, for each path,
      what they produce (rows, a document) or the exception they raise;
    - a Python computation is a value of [M A]: the lines it printed on
      the console together with either its result or the exception that
      ended it. *)

From Stdlib Require Import String Ascii NArith.
From stdpp Require Import gmap list.

Set Warnings "-register-all".
Local Open Scope N_scope.

(** ** Python strings *)

Abbreviation str := (list N).

(** A literal of the source, as its code points. *)
Definition py (s : string) : str := N_of_ascii <$> list_ascii_of_string s.

(** [str.isspace] on one code point: the ASCII table of CPython
    (TAB..CR, FS..US, SPACE) and the Unicode white space above it. *)
Definition isspace (c : N) : bool :=
  ((9 <=? c) && (c <=? 13)) || ((28 <=? c) && (c <=? 32))
  || (c =? 133) || (c =? 160) || (c =? 5760)
  || ((8192 <=? c) && (c <=? 8202))
  || (c =? 8232) || (c =? 8233) || (c =? 8239) || (c =? 8287) || (c =? 12288).

Fixpoint lstrip (s : str) : str :=
  match s with
  | c :: s' => if isspace c then lstrip s' else s
  | [] => []
  end.

Definition rstrip (s : str) : str := reverse (lstrip (reverse s)).

(** [s.strip()] *)
Definition strip (s : str) : str := rstrip (lstrip s).

(** [sep.join(parts)] for the empty separator. *)
Definition join_empty (parts : list str) : str := concat parts.

(** ** The minidom tree *)

Inductive node : Type :=
  | Document (childNodes : list node)
  | Element (tagName : str) (childNodes : list node)
  | Text (data : str)
  | CDATASection (data : str)
  | Comment (data : str)
  | ProcessingInstruction (target data : str).

Definition ELEMENT_NODE : N := 1.
Definition TEXT_NODE : N := 3.
Definition CDATA_SECTION_NODE : N := 4.
Definition PROCESSING_INSTRUCTION_NODE : N := 7.
Definition COMMENT_NODE : N := 8.
Definition DOCUMENT_NODE : N := 9.

Definition nodeType (n : node) : N :=
  match n with
  | Document _ => DOCUMENT_NODE
  | Element _ _ => ELEMENT_NODE
  | Text _ => TEXT_NODE
  | CDATASection _ => CDATA_SECTION_NODE
  | Comment _ => COMMENT_NODE
  | ProcessingInstruction _ _ => PROCESSING_INSTRUCTION_NODE
  end.

Definition childNodes (n : node) : list node :=
  match n with
  | Document cs | Element _ cs => cs
  | _ => []
  end.

(** [node.data]; only character-data nodes carry it, and the source
    reads it under the [nodeType] test only. *)
Definition data (n : node) : str :=
  match n with
  | Text d | CDATASection d | Comment d | ProcessingInstruction _ d => d
  | _ => []
  end.

(** ** [get_text] (lines 220-236) *)

(** One turn of the loop over [element.childNodes]. *)
Definition get_text_step (text : list str) (child : node) : list str :=
  if nodeType child =? TEXT_NODE then text ++ [data child] else text.

Definition get_text (element : node) : str :=
  let text := foldl get_text_step [] (childNodes element) in
  strip (join_empty text).

(** The data of the direct text-node children, in document order: the
    specification's reading of "direct text content". *)
Definition direct_text_data (element : node) : list str :=
  omap (λ child, match child with Text d => Some d | _ => None end)
       (childNodes element).

(** A string neither starts nor ends with white space. *)
Definition trimmed (s : str) : Prop :=
  (∀ c s', s = c :: s' → isspace c = false) ∧
  (∀ c s', s = s' ++ [c] → isspace c = false).

(** ** Python computations: console output, exceptions *)

Inductive exn : Type :=
  | EnvironmentError (filename : str)
  | ExpatError (message : str)
  | IndexError.

Inductive outcome (A : Type) : Type :=
  | Return (a : A)
  | Raise (e : exn).
Arguments Return {A} a.
Arguments Raise {A} e.

(** The lines written by [print], oldest first, and how the computation
    ended. *)
Definition M (A : Type) : Type := list str * outcome A.

Definition ret {A} (a : A) : M A := ([], Return a).
Definition raise {A} (e : exn) : M A := ([], Raise e).
Definition lift {A} (o : outcome A) : M A := ([], o).

Definition bind {A B} (m : M A) (k : A → M B) : M B :=
  match m with
  | (out, Return a) => let '(out', r) := k a in (out ++ out', r)
  | (out, Raise e) => (out, Raise e)
  end.

Declare Scope py_scope.
Delimit Scope py_scope with py.
Notation "'let*' x ':=' m 'in' k" := (bind m (λ x, k))
  (at level 10, x name, m at level 100, k at level 200) : py_scope.
Notation "'run' m 'in' k" := (bind m (λ _, k))
  (at level 10, m at level 100, k at level 200) : py_scope.
Local Open Scope py_scope.

(** [print(s)] *)
Definition print (s : str) : M unit := ([s], Return tt).

(** [try: m  except <classes selected by handles> as err: handler err] *)
Definition try_except {A} (m : M A) (handles : exn → bool)
    (handler : exn → M A) : M A :=
  match m with
  | (out, Raise e) =>
      if handles e then let '(out', r) := handler e in (out ++ out', r)
      else (out, Raise e)
  | done => done
  end.

(** [l[i]] on a Python list (or a minidom NodeList, which is one). *)
Definition getitem {A} (l : list A) (i : nat) : M A :=
  match l !! i with
  | Some x => ret x
  | None => raise IndexError
  end.

(** [for x in l: s = body(s, x)], the loop-carried variables in [s]. *)
Fixpoint for_in {A S} (l : list A) (body : S → A → M S) (s : S) : M S :=
  match l with
  | [] => ret s
  | x :: l' => let* s' := body s x in for_in l' body s'
  end.

(** ** The file system, as the library calls see it *)

(** [open_csv path] is [open(path)] followed by [csv.reader(f,
    delimiter=',')]: the rows of the file, each the list of its fields,
    or the exception of [open]. [minidom_parse path] is
    [xml.dom.minidom.parse(path)]: the Document node, or the exception of
    the parser (I/O, or not well-formed). *)
Record FileSystem : Type := {
  open_csv : str → outcome (list (list str));
  minidom_parse : str → outcome node
}.

(** ** [getElementsByTagName] of minidom

    [_get_elements_by_tagName_helper]: the element children that match,
    each followed by its own matching descendants (preorder). *)

Definition tag_matches (name : str) (n : node) : bool :=
  match n with
  | Element tagName _ =>
      bool_decide (name = py "*") || bool_decide (tagName = name)
  | _ => false
  end.

Fixpoint elements_from (name : str) (n : node) : list node :=
  (if tag_matches name n then [n] else [])
  ++ match n with
     | Document cs | Element _ cs => flat_map (elements_from name) cs
     | _ => []
     end.

Definition getElementsByTagName (parent : node) (name : str) : list node :=
  flat_map (elements_from name) (childNodes parent).

(** ** [extract_imo] (lines 119-158) *)

(** [directory[row[0]] = row[1]]: the right-hand side is evaluated
    first. *)
Definition extract_imo_row (directory : gmap str str) (row : list str)
    : M (gmap str str) :=
  let* mmsi := getitem row 1 in
  let* imo := getitem row 0 in
  ret (<[imo := mmsi]> directory).

Definition extract_imo (fs : FileSystem) (imo_filename : str)
    : M (gmap str str) :=
  let directory : gmap str str := ∅ in
  let* csv_reader := lift (open_csv fs imo_filename) in
  for_in csv_reader extract_imo_row directory.

(** ** [extract_ship_properties] (lines 161-216) *)

(** What a call can hand back to its caller. *)
Inductive pyval : Type :=
  | PyNone
  | PySet (elements : gset (str * str * str)).

(** The classes of the [except] clause of line 207. *)
Definition import_error (e : exn) : bool :=
  match e with
  | EnvironmentError _ | ExpatError _ => true
  | IndexError => false
  end.

(** Lines 210-214, one concept: the values of [vessel_name] and
    [definition] when the iteration ends. *)
Definition extract_member (member : node) : M (str * str) :=
  let* label := getitem (getElementsByTagName member (py "skos:prefLabel")) 0 in
  let vessel_name := get_text label in
  let* def := getitem (getElementsByTagName member (py "skos:definition")) 0 in
  let definition := get_text def in
  run print definition in
  ret (vessel_name, definition).

Definition extract_ship_properties (fs : FileSystem)
    (imo_filename xml_vessel_filename : str) : M pyval :=
  let* dictionary := extract_imo fs imo_filename in
  let new_set : gset (str * str * str) := ∅ in
  let* dom := lift (minidom_parse fs xml_vessel_filename) in
  let* dom := try_except (lift (minidom_parse fs xml_vessel_filename))
          import_error
          (λ err, run print (py "0: import error: 1") in ret dom) in
  run for_in (getElementsByTagName dom (py "skos:Concept"))
             (λ _ member, run extract_member member in ret tt) tt in
  ret PyNone.

(** ** Specification-side notions *)

(** The proper descendants of a node, in document order. *)
Fixpoint subtree (n : node) : list node :=
  n :: match n with
       | Document cs | Element _ cs => flat_map subtree cs
       | _ => []
       end.

Definition descendants (n : node) : list node :=
  flat_map subtree (childNodes n).

(** The MMSI of the last row of the file whose first field is [imo]:
    the specification's "last occurrence wins". *)
Fixpoint last_mmsi (imo : str) (rows : list (list str)) : option str :=
  match rows with
  | [] => None
  | row :: rows' =>
      match last_mmsi imo rows' with
      | Some mmsi => Some mmsi
      | None => if bool_decide (row !! 0%nat = Some imo) then row !! 1%nat else None
      end
  end.

(** ** Sample inputs, after the module's docstring *)

Definition imo_vessel_codes : list (list str) :=
  [ [py "imo"; py "mmsi"; py "name"; py "flag"; py "type"];
    [py "9116462"; py "1073727001"; py "AEGEANQUE EN"; []; py "Passengers Ship"];
    [py "9116462"; py "1072678425"; py "AEGEQNQUE EN"; []; py "Passengers Ship"];
    [py "9700940"; py "1028641360"; py "IVQ!PC=NDA  O0  O0"; []; py "Cargo"];
    [py "8219384"; py "367049000"; py "2ND LT JOHN P BOBO"; []; py "Cargo"] ].

Definition nl : node := Text [10].

(** A JSON string literal: the text between double quotes (code 34). *)
Definition quoted (s : str) : str := [34] ++ s ++ [34].

Definition concept_90UW : node :=
  Element (py "skos:Concept")
    [ nl; Element (py "dc:identifier") [Text (py "SDN:C17::90UW")];
      nl; Element (py "skos:prefLabel") [Text (py "11TH Pjatiletka")];
      nl; Element (py "skos:altLabel") [];
      nl; Element (py "skos:definition") [Text (py "OCL REQUEST")];
      nl; Element (py "owl:deprecated") [Text (py "true")];
      nl ].

(** The JSON text [{ "IMO": "8219384" }]. *)
Definition json_3234 : str :=
  py "{ " ++ quoted (py "IMO") ++ py ": " ++ quoted (py "8219384") ++ py " }".

Definition concept_3234 : node :=
  Element (py "skos:Concept")
    [ nl; Element (py "dc:identifier") [Text (py "SDN:C17::3234")];
      nl; Element (py "skos:prefLabel") [Text (py "2nd Lt. John P.Bobo")];
      nl; Element (py "skos:altLabel") [];
      nl; Element (py "skos:definition") [Text ([10; 32; 32] ++ json_3234 ++ [10])];
      nl; Element (py "owl:deprecated") [Text (py "false")];
      nl ].

(** A concept without a [skos:definition] child. *)
Definition concept_bare : node :=
  Element (py "skos:Concept")
    [ nl; Element (py "skos:prefLabel") [Text (py "Aurora")]; nl ].

Definition collection (members : list node) : node :=
  Document
    [ ProcessingInstruction (py "xml-stylesheet") (py "type=text/xsl");
      Element (py "rdf:RDF")
        [ nl;
          Element (py "skos:Collection")
            ([ nl; Element (py "skos:prefLabel") [Text (py "ICES Platform Codes")];
               nl; Element (py "dc:creator") [Text (py "ICES")] ]
             ++ flat_map (λ c, [nl; Element (py "skos:member") [nl; c; nl]]) members
             ++ [nl]);
          nl ] ].

Definition ICES_vessel_sample : node := collection [concept_90UW; concept_3234].

(** A directory holding the registry, three well-formed documents, a
    registry with a truncated row and a file that is not XML. *)
Definition sample_fs : FileSystem := {|
  open_csv path :=
    if bool_decide (path = py "imo-vessel-codes.csv") then Return imo_vessel_codes
    else if bool_decide (path = py "truncated.csv")
    then Return [ [py "9116462"; py "1073727001"]; [py "9700940"];
                  [py "8219384"; py "367049000"] ]
    else Raise (EnvironmentError path);
  minidom_parse path :=
    if bool_decide (path = py "ICES_vessel_sample.xml") then Return ICES_vessel_sample
    else if bool_decide (path = py "one_vessel.xml") then Return (collection [concept_3234])
    else if bool_decide (path = py "no_definition.xml")
    then Return (collection [concept_bare; concept_3234])
    else if bool_decide (path = py "not_xml.xml")
    then Raise (ExpatError (py "syntax error: line 1, column 0"))
    else Raise (EnvironmentError path)
|}.

(** ** Notions and inputs for the further properties *)

(** The first column of a registry file. *)
Definition imo_column (rows : list (list str)) : list str :=
  omap (λ row, row !! 0%nat) rows.

(** The line that one turn of the loop of lines 209-214 writes for a
    concept: the text of its first [skos:definition], when the concept
    has a [skos:prefLabel] and a [skos:definition] below it. *)
Definition concept_line (member : node) : option str :=
  match getElementsByTagName member (py "skos:prefLabel"),
        getElementsByTagName member (py "skos:definition") with
  | _ :: _, def :: _ => Some (get_text def)
  | _, _ => None
  end.

Definition codes_january : list (list str) :=
  [ [py "9116462"; py "1073727001"; py "AEGEANQUE EN"];
    [py "9700940"; py "1028641360"; py "IVQ"] ].

Definition codes_february : list (list str) :=
  [ [py "9116462"; py "1072678425"; py "AEGEQNQUE EN"];
    [py "8219384"; py "367049000"; py "BOBO"] ].

(** A second directory: registries that are parts, the sum, a
    reordering and a two-column cut of each other, and a document whose
    second concept has no definition. *)
Definition lab_fs : FileSystem := {|
  open_csv path :=
    if bool_decide (path = py "january.csv") then Return codes_january
    else if bool_decide (path = py "february.csv") then Return codes_february
    else if bool_decide (path = py "both.csv")
    then Return (codes_january ++ codes_february)
    else if bool_decide (path = py "february_reversed.csv")
    then Return (reverse codes_february)
    else if bool_decide (path = py "february_two_columns.csv")
    then Return (take 2 <$> codes_february)
    else if bool_decide (path = py "truncated.csv")
    then Return [ [py "9116462"; py "1073727001"]; [py "9700940"] ]
    else Raise (EnvironmentError path);
  minidom_parse path :=
    if bool_decide (path = py "ICES_vessel_sample.xml") then Return ICES_vessel_sample
    else if bool_decide (path = py "incomplete.xml")
    then Return (collection [concept_90UW; concept_bare; concept_3234])
    else Raise (EnvironmentError path)
|}.

(** The node found from [n] by following a path of child indices. *)
Fixpoint node_at (n : node) (path : list nat) : option node :=
  match path with
  | [] => Some n
  | i :: path' =>
      match childNodes n !! i with
      | Some child => node_at child path'
      | None => None
      end
  end.

(** A third directory: the sample registry, two registries with an empty
    row (a blank line of the file), and two files that are not XML and
    stop the parser at the same place. *)
Definition damaged_fs : FileSystem := {|
  open_csv path :=
    if bool_decide (path = py "imo-vessel-codes.csv") then Return imo_vessel_codes
    else if bool_decide (path = py "duplicate_then_blank.csv")
    then Return [ [py "9116462"; py "1073727001"];
                  [py "9116462"; py "1072678425"]; [] ]
    else if bool_decide (path = py "blank_line.csv")
    then Return [ [py "9116462"; py "1073727001"]; [];
                  [py "9700940"; py "1028641360"] ]
    else Raise (EnvironmentError path);
  minidom_parse path :=
    if bool_decide (path = py "not_xml.xml")
    then Raise (ExpatError (py "syntax error: line 1, column 0"))
    else if bool_decide (path = py "also_not_xml.xml")
    then Raise (ExpatError (py "syntax error: line 1, column 0"))
    else Raise (EnvironmentError path)
|}.

(** * Properties *)

(** ** Strings *)

Lemma lstrip_split (s : str) :
  ∃ l, s = l ++ lstrip s ∧ forallb isspace l = true.
Proof.
  induction s as [|c s IH]; simpl.
  - by exists [].
  - destruct (isspace c) eqn:Hc.
    + destruct IH as (l & Hl & Hsp). exists (c :: l). simpl.
      rewrite Hc, Hsp. split; [by f_equal | done].
    + by exists [].
Qed.

Lemma lstrip_head (s : str) c s' : lstrip s = c :: s' → isspace c = false.
Proof.
  induction s as [|a s IH]; simpl; [done|].
  destruct (isspace a) eqn:Ha; [done|]. intros [= <- _]. done.
Qed.

Lemma forallb_reverse {A} (f : A → bool) (l : list A) :
  forallb f (reverse l) = forallb f l.
Proof.
  induction l as [|a l IH]; [done|].
  rewrite reverse_cons, forallb_app, IH. simpl. rewrite andb_true_r.
  apply andb_comm.
Qed.

Lemma rstrip_split (s : str) :
  ∃ r, s = rstrip s ++ r ∧ forallb isspace r = true.
Proof.
  unfold rstrip. destruct (lstrip_split (reverse s)) as (l & Hl & Hsp).
  exists (reverse l). split.
  - rewrite <- reverse_app, <- Hl. by rewrite reverse_involutive.
  - by rewrite forallb_reverse.
Qed.

Lemma rstrip_last (s : str) c s' : rstrip s = s' ++ [c] → isspace c = false.
Proof.
  unfold rstrip. intros H. apply (f_equal reverse) in H.
  rewrite reverse_involutive, reverse_app in H. simpl in H.
  by apply lstrip_head in H.
Qed.

Lemma strip_split (s : str) :
  ∃ l r, s = l ++ strip s ++ r
         ∧ forallb isspace l = true ∧ forallb isspace r = true.
Proof.
  unfold strip. destruct (lstrip_split s) as (l & Hl & Hsl).
  destruct (rstrip_split (lstrip s)) as (r & Hr & Hsr).
  exists l, r. split; [|done]. by rewrite <- Hr.
Qed.

Lemma strip_trimmed (s : str) : trimmed (strip s).
Proof.
  unfold strip. split; intros c s' H.
  - destruct (rstrip_split (lstrip s)) as (r & Hr & _).
    rewrite H in Hr. by apply lstrip_head in Hr.
  - by apply rstrip_last in H.
Qed.

(** ** [get_text] *)

Lemma get_text_loop (cs : list node) (text : list str) :
  foldl get_text_step text cs
  = text ++ omap (λ child, match child with Text d => Some d | _ => None end) cs.
Proof.
  revert text. induction cs as [|c cs IH]; intros text; simpl.
  - by rewrite app_nil_r.
  - rewrite IH. unfold get_text_step.
    destruct c; simpl; try done. by rewrite <- app_assoc.
Qed.

Lemma get_text_eq (element : node) :
  get_text element = strip (join_empty (direct_text_data element)).
Proof. unfold get_text. by rewrite get_text_loop. Qed.

Lemma direct_text_data_filter tag (cs : list node) :
  direct_text_data
    (Element tag (filter (λ c, nodeType c = TEXT_NODE) cs))
  = direct_text_data (Element tag cs).
Proof.
  unfold direct_text_data. simpl. induction cs as [|c cs IH]; [done|].
  rewrite filter_cons.
  destruct (decide (nodeType c = TEXT_NODE)) as [Hc|Hc];
    destruct c; try done; simpl in *;
    first [exact IH | f_equal; exact IH].
Qed.

(** C6. [get_text] returns the data of the element's direct text-node
    children, concatenated in document order and stripped: the result is
    what is left of that concatenation when a run of white space is
    taken off each end, and it neither starts nor ends with white space;
    only the direct text-node children matter (the same element with
    every other child removed, child elements and their text included,
    has the same text); the result is the empty string when there is no
    direct text-node child. *)
Theorem get_text_direct_text (element : node) :
  get_text element = strip (join_empty (direct_text_data element))
  ∧ (∃ l r, join_empty (direct_text_data element) = l ++ get_text element ++ r
            ∧ forallb isspace l = true ∧ forallb isspace r = true)
  ∧ trimmed (get_text element)
  ∧ (∀ tag, get_text (Element tag (filter (λ c, nodeType c = TEXT_NODE)
                                          (childNodes element)))
            = get_text element)
  ∧ (direct_text_data element = [] → get_text element = []).
Proof.
  rewrite get_text_eq. split_and!.
  - done.
  - apply strip_split.
  - apply strip_trimmed.
  - intros tag. rewrite get_text_eq.
    replace (direct_text_data element)
      with (direct_text_data (Element tag (childNodes element))) by done.
    by rewrite direct_text_data_filter.
  - by intros ->.
Qed.

(** ** The monad *)

Lemma bind_Return_inv {A B} (m : M A) (k : A → M B) out b :
  bind m k = (out, Return b) →
  ∃ out1 a out2, m = (out1, Return a) ∧ k a = (out2, Return b)
                 ∧ out = out1 ++ out2.
Proof.
  destruct m as [out1 [a|e]]; simpl; [|done].
  destruct (k a) as [out2 r] eqn:Hk. intros [= <- ->].
  by exists out1, a, out2.
Qed.

Lemma bind_ret_l {A B} (a : A) (k : A → M B) : bind (ret a) k = k a.
Proof. unfold bind, ret. by destruct (k a). Qed.

Lemma bind_Raise {A B} out e (k : A → M B) :
  bind (out, Raise e) k = (out, Raise e).
Proof. done. Qed.

(** ** [extract_imo] *)

Lemma extract_imo_row_ok (directory : gmap str str) (row : list str) :
  (2 ≤ length row)%nat →
  ∃ imo mmsi, row !! 0%nat = Some imo ∧ row !! 1%nat = Some mmsi
    ∧ extract_imo_row directory row = ([], Return (<[imo := mmsi]> directory)).
Proof.
  intros Hlen. destruct row as [|imo [|mmsi row]]; simpl in Hlen; try lia.
  by exists imo, mmsi.
Qed.

Lemma extract_imo_row_short (directory : gmap str str) (row : list str) :
  (length row < 2)%nat →
  extract_imo_row directory row = ([], Raise IndexError).
Proof.
  intros Hlen. destruct row as [|imo [|mmsi row]]; simpl in Hlen; try lia; done.
Qed.

(** The loop of lines 156-157 over well-formed rows: it ends normally,
    prints nothing, and each key maps to the MMSI of its last row, or
    to what the dictionary held before the loop. *)
Lemma extract_imo_loop (rows : list (list str)) (directory : gmap str str) :
  Forall (λ row, (2 ≤ length row)%nat) rows →
  ∃ directory',
    for_in rows extract_imo_row directory = ([], Return directory')
    ∧ ∀ imo, directory' !! imo
             = match last_mmsi imo rows with
               | Some mmsi => Some mmsi
               | None => directory !! imo
               end.
Proof.
  intros Hrows. revert directory.
  induction Hrows as [|row rows Hrow _ IH]; intros directory.
  - by exists directory.
  - destruct (extract_imo_row_ok directory row Hrow) as (k & v & Hk & Hv & Hstep).
    destruct (IH (<[k := v]> directory)) as (d' & Hloop & Hd').
    exists d'. split.
    + simpl. rewrite Hstep. simpl. by rewrite Hloop.
    + intros imo. rewrite Hd'. simpl.
      destruct (last_mmsi imo rows); [done|].
      rewrite Hk, Hv. case_bool_decide as Himo.
      * injection Himo as ->. by rewrite lookup_insert_eq.
      * rewrite lookup_insert_ne; [done|]. congruence.
Qed.

(** The same loop stops with [IndexError] at the first row that has
    fewer than two fields. *)
Lemma extract_imo_loop_short (rows : list (list str)) (directory : gmap str str) :
  Exists (λ row, (length row < 2)%nat) rows →
  for_in rows extract_imo_row directory = ([], Raise IndexError).
Proof.
  revert directory. induction rows as [|row rows IH]; intros directory Hex.
  - by apply Exists_nil in Hex.
  - simpl. destruct (decide (length row < 2)%nat) as [Hshort|Hlong].
    + by rewrite extract_imo_row_short.
    + apply Exists_cons in Hex as [?|Hex]; [done|].
      destruct (extract_imo_row_ok directory row) as (k & v & _ & _ & ->); [lia|].
      simpl. by rewrite IH.
Qed.

Lemma last_mmsi_app imo (rows rows' : list (list str)) :
  last_mmsi imo (rows ++ rows')
  = match last_mmsi imo rows' with
    | Some mmsi => Some mmsi
    | None => last_mmsi imo rows
    end.
Proof.
  induction rows as [|row rows IH]; simpl.
  - by destruct (last_mmsi imo rows').
  - rewrite IH. by destruct (last_mmsi imo rows').
Qed.

Lemma last_mmsi_None imo (rows : list (list str)) :
  (∀ row, row ∈ rows → row !! 0%nat ≠ Some imo) → last_mmsi imo rows = None.
Proof.
  induction rows as [|row rows IH]; intros Hrows; simpl; [done|].
  rewrite IH by (intros r Hr; apply Hrows; by right).
  rewrite bool_decide_eq_false_2; [done|]. apply Hrows. by left.
Qed.

Lemma last_mmsi_Some imo mmsi (rows : list (list str)) :
  last_mmsi imo rows = Some mmsi →
  ∃ row, row ∈ rows ∧ row !! 0%nat = Some imo ∧ row !! 1%nat = Some mmsi.
Proof.
  induction rows as [|row rows IH]; simpl; [done|].
  destruct (last_mmsi imo rows) as [v|] eqn:Hlast.
  - intros [= ->]. destruct IH as (r & Hr & ?); [done|]. exists r. split; [by right|done].
  - case_bool_decide; [|done]. intros Hv. exists row. split; [by left|done].
Qed.

Lemma last_mmsi_is_Some imo (rows : list (list str)) row :
  Forall (λ row, (2 ≤ length row)%nat) rows →
  row ∈ rows → row !! 0%nat = Some imo → is_Some (last_mmsi imo rows).
Proof.
  intros Hrows. induction Hrows as [|r rows Hr _ IH]; intros Hin Himo.
  - by apply elem_of_nil in Hin.
  - simpl. apply elem_of_cons in Hin as [->|Hin].
    + destruct (last_mmsi imo rows); [done|].
      rewrite bool_decide_eq_true_2 by done.
      apply lookup_lt_is_Some. lia.
    + destruct (IH Hin Himo) as [v ->]. done.
Qed.

(** C7 (as the code has it). On a registry file whose rows all have at
    least two fields,
    [extract_imo] ends normally after one pass and returns a dictionary
    in which every row of the file, the first one included (no header is
    skipped), has put its field 0 as a key; a key maps to field 1 of the
    last row that carries it (insert or overwrite), and there is no key
    that is not field 0 of some row. *)
Theorem extract_imo_every_row (fs : FileSystem) (imo_filename : str)
    (rows : list (list str)) :
  open_csv fs imo_filename = Return rows →
  Forall (λ row, (2 ≤ length row)%nat) rows →
  ∃ directory,
    extract_imo fs imo_filename = ([], Return directory)
    ∧ (∀ imo, directory !! imo = last_mmsi imo rows)
    ∧ (∀ row, row ∈ rows →
         ∃ imo, row !! 0%nat = Some imo ∧ is_Some (directory !! imo))
    ∧ (∀ imo mmsi, directory !! imo = Some mmsi →
         ∃ row, row ∈ rows ∧ row !! 0%nat = Some imo ∧ row !! 1%nat = Some mmsi).
Proof.
  intros Hopen Hrows.
  destruct (extract_imo_loop rows ∅ Hrows) as (d & Hloop & Hd).
  assert (Hlast : ∀ imo, d !! imo = last_mmsi imo rows).
  { intros imo. rewrite Hd. by destruct (last_mmsi imo rows). }
  exists d. split_and!.
  - unfold extract_imo. rewrite Hopen. unfold lift. simpl. by rewrite Hloop.
  - done.
  - intros row Hin.
    assert (is_Some (row !! 0%nat)) as [imo Himo].
    { apply lookup_lt_is_Some. rewrite Forall_forall in Hrows.
      specialize (Hrows row Hin). simpl in Hrows. lia. }
    exists imo. split; [done|]. rewrite Hlast.
    by eapply last_mmsi_is_Some.
  - intros imo mmsi. rewrite Hlast. apply last_mmsi_Some.
Qed.

(** C3 (as the code has it). When two rows of a well-formed registry
    file (every row has at least two fields) carry the same IMO
    with different MMSIs, and the later of the two is the last row with
    that IMO, the dictionary returned by [extract_imo] maps the IMO to
    the MMSI of the later row and not to that of the earlier one: one
    value per key, the earlier one discarded. *)
Theorem extract_imo_last_wins (fs : FileSystem) (imo_filename : str)
    (before between after : list (list str)) (earlier later : list str)
    (imo mmsi1 mmsi2 : str) :
  open_csv fs imo_filename
    = Return (before ++ earlier :: between ++ later :: after) →
  Forall (λ row, (2 ≤ length row)%nat)
         (before ++ earlier :: between ++ later :: after) →
  earlier !! 0%nat = Some imo → earlier !! 1%nat = Some mmsi1 →
  later !! 0%nat = Some imo → later !! 1%nat = Some mmsi2 →
  mmsi1 ≠ mmsi2 →
  Forall (λ row, row !! 0%nat ≠ Some imo) after →
  ∃ directory,
    extract_imo fs imo_filename = ([], Return directory)
    ∧ directory !! imo = Some mmsi2
    ∧ directory !! imo ≠ Some mmsi1.
Proof.
  intros Hopen Hrows _ _ Hk2 Hv2 Hne Hafter.
  rewrite Forall_forall in Hafter.
  destruct (extract_imo_loop _ ∅ Hrows) as (d & Hloop & Hd).
  exists d. split; [|split].
  - unfold extract_imo. rewrite Hopen. unfold lift. simpl. by rewrite Hloop.
  - rewrite Hd.
    rewrite last_mmsi_app. change (earlier :: between ++ later :: after)
      with ([earlier] ++ between ++ later :: after).
    rewrite !last_mmsi_app. simpl.
    rewrite (last_mmsi_None _ _ Hafter), Hk2, Hv2.
    by rewrite bool_decide_eq_true_2.
  - intros Heq. apply Hne.
    enough (Some mmsi1 = Some mmsi2) by congruence.
    rewrite <- Heq, Hd.
    rewrite last_mmsi_app. change (earlier :: between ++ later :: after)
      with ([earlier] ++ between ++ later :: after).
    rewrite !last_mmsi_app. simpl.
    rewrite (last_mmsi_None _ _ Hafter), Hk2, Hv2.
    by rewrite bool_decide_eq_true_2.
Qed.

(** C8 (as the code has it). A registry file with a row of fewer than
    two fields makes [extract_imo] raise Python's own [IndexError], at
    the first such row: the row is not skipped, no dictionary is
    returned, and nothing is printed. *)
Theorem extract_imo_short_row (fs : FileSystem) (imo_filename : str)
    (rows : list (list str)) :
  open_csv fs imo_filename = Return rows →
  Exists (λ row, (length row < 2)%nat) rows →
  extract_imo fs imo_filename = ([], Raise IndexError).
Proof.
  intros Hopen Hshort. unfold extract_imo. rewrite Hopen. unfold lift. simpl.
  by rewrite extract_imo_loop_short.
Qed.

(** ** The tree and [getElementsByTagName] *)

Lemma node_children_ind (P : node → Prop) :
  (∀ n, Forall P (childNodes n) → P n) → ∀ n, P n.
Proof.
  intros step. fix IH 1. intros n. apply step.
  destruct n as [cs|tag cs| | | |]; simpl; try constructor;
    induction cs as [|c cs IHcs]; constructor; auto.
Qed.

Lemma elements_from_children name (n : node) :
  elements_from name n
  = (if tag_matches name n then [n] else [])
    ++ flat_map (elements_from name) (childNodes n).
Proof. by destruct n. Qed.

Lemma subtree_children (n : node) :
  subtree n = n :: flat_map subtree (childNodes n).
Proof. by destruct n. Qed.

Lemma filter_flat_map {A B} (P : B → Prop) `{!∀ x, Decision (P x)}
    (f g : A → list B) (l : list A) :
  Forall (λ x, g x = filter P (f x)) l →
  flat_map g l = filter P (flat_map f l).
Proof.
  induction 1 as [|x l Hx _ IH]; simpl; [done|].
  by rewrite filter_app, Hx, IH.
Qed.

(** The elements found under a node are its descendants with that tag
    name, in document order. *)
Lemma elements_from_filter name (n : node) :
  elements_from name n = filter (λ x, tag_matches name x) (subtree n).
Proof.
  induction n as [n IH] using node_children_ind.
  rewrite elements_from_children, subtree_children, filter_cons.
  rewrite (filter_flat_map _ subtree (elements_from name) _ IH).
  by destruct (tag_matches name n).
Qed.

Lemma getElementsByTagName_filter (parent : node) name :
  getElementsByTagName parent name
  = filter (λ x, tag_matches name x) (descendants parent).
Proof.
  unfold getElementsByTagName, descendants. apply filter_flat_map.
  apply Forall_forall. intros n _. apply elements_from_filter.
Qed.

Lemma tag_matches_Element name (n : node) :
  name ≠ py "*" → tag_matches name n = true → ∃ cs, n = Element name cs.
Proof.
  intros Hname. destruct n as [|tag cs| | | |]; simpl; try done.
  rewrite (bool_decide_eq_false_2 _ Hname). simpl.
  intros ->%bool_decide_eq_true. by exists cs.
Qed.

Lemma getitem_Return_inv {A} (l : list A) out x :
  getitem l 0 = (out, Return x) → out = [] ∧ ∃ l', l = x :: l'.
Proof.
  destruct l as [|y l]; [done|]. intros [= <- ->]. split; [done|by exists l].
Qed.

(** ** [extract_ship_properties] *)

(** When the body of the loop has run for a node, the value of
    [vessel_name] is the text of the first [skos:prefLabel] element
    among the descendants of that node. *)
Lemma extract_member_own_label (member : node) (out : list str)
    (vessel_name definition : str) :
  extract_member member = (out, Return (vessel_name, definition)) →
  ∃ label others,
    filter (λ x, tag_matches (py "skos:prefLabel") x) (descendants member)
      = label :: others
    ∧ label ∈ descendants member
    ∧ (∃ cs, label = Element (py "skos:prefLabel") cs)
    ∧ vessel_name = get_text label.
Proof.
  unfold extract_member. intros H.
  apply bind_Return_inv in H as (out1 & label & out2 & Hlabel & H & _).
  apply bind_Return_inv in H as (out3 & def & out4 & _ & H & _).
  apply bind_Return_inv in H as (out5 & u & out6 & _ & H & _).
  assert (Hname : vessel_name = get_text label) by (inversion H; done).
  apply getitem_Return_inv in Hlabel as (_ & others & Hfound).
  rewrite getElementsByTagName_filter in Hfound.
  assert (Hin : label ∈ filter (λ x, tag_matches (py "skos:prefLabel") x)
                               (descendants member)).
  { rewrite Hfound. by left. }
  apply list_elem_of_filter in Hin as [Htag Hin].
  exists label, others. split_and!; [done|done| |done].
  apply tag_matches_Element; [by vm_compute|].
  by apply Is_true_true.
Qed.

(** C10. Whenever [extract_ship_properties] ends without an exception,
    the value it hands back is [None]: never a set. *)
Theorem extract_ship_properties_returns_None (fs : FileSystem)
    (imo_filename xml_vessel_filename : str) (out : list str) (v : pyval) :
  extract_ship_properties fs imo_filename xml_vessel_filename
    = (out, Return v) →
  v = PyNone ∧ ∀ elements, v ≠ PySet elements.
Proof.
  unfold extract_ship_properties. intros H.
  apply bind_Return_inv in H as (out1 & dictionary & out2 & _ & H & _).
  apply bind_Return_inv in H as (out3 & dom & out4 & _ & H & _).
  apply bind_Return_inv in H as (out5 & dom' & out6 & _ & H & _).
  apply bind_Return_inv in H as (out7 & u & out8 & _ & H & _).
  inversion H. done.
Qed.

(** X14. When the registry has been loaded and
    [xml.dom.minidom.parse] raises on the document (file missing or
    unreadable, or not well-formed), [extract_ship_properties] ends with
    that very exception, unwrapped: no value is returned, no concept is
    visited and nothing more is printed. *)
Theorem document_error_is_fatal (fs : FileSystem)
    (imo_filename xml_vessel_filename : str) (out : list str)
    (directory : gmap str str) (e : exn) :
  extract_imo fs imo_filename = (out, Return directory) →
  minidom_parse fs xml_vessel_filename = Raise e →
  extract_ship_properties fs imo_filename xml_vessel_filename
    = (out, Raise e).
Proof.
  intros Himo Hparse. unfold extract_ship_properties.
  rewrite Himo, Hparse. simpl. by rewrite app_nil_r.
Qed.

(** ** The code on the sample inputs *)

(** C1. The registry maps IMO 8219384 to MMSI 367049000 and the document
    holds one concept, labelled "2nd Lt. John P.Bobo", whose definition
    is a JSON object with that IMO; the loop body reads name and
    definition, yet [extract_ship_properties] prints the definition and
    hands back [None], not a set holding the record. *)
Theorem matching_vessel_is_not_returned :
  (∃ directory,
     extract_imo sample_fs (py "imo-vessel-codes.csv") = ([], Return directory)
     ∧ directory !! py "8219384" = Some (py "367049000"))
  ∧ extract_member concept_3234
    = ([json_3234], Return (py "2nd Lt. John P.Bobo", json_3234))
  ∧ extract_ship_properties sample_fs (py "imo-vessel-codes.csv")
      (py "one_vessel.xml")
    = ([json_3234], Return PyNone).
Proof.
  split_and!.
  - eexists. split; by vm_compute.
  - by vm_compute.
  - by vm_compute.
Qed.

(** C2. A concept without a [skos:definition] child: subscript 0 of the
    empty node list raises [IndexError] in the loop body, and the whole
    call ends with it, before the concept that follows is visited. *)
Theorem missing_definition_aborts :
  getElementsByTagName concept_bare (py "skos:definition") = []
  ∧ extract_member concept_bare = ([], Raise IndexError)
  ∧ minidom_parse sample_fs (py "no_definition.xml")
    = Return (collection [concept_bare; concept_3234])
  ∧ extract_ship_properties sample_fs (py "imo-vessel-codes.csv")
      (py "no_definition.xml")
    = ([], Raise IndexError).
Proof. split_and!; by vm_compute. Qed.

(** C9. On the sample document the call writes the definition text of
    each of the two concepts to the console. *)
Theorem extraction_prints_definitions :
  extract_ship_properties sample_fs (py "imo-vessel-codes.csv")
    (py "ICES_vessel_sample.xml")
  = ([py "OCL REQUEST"; json_3234], Return PyNone).
Proof. by vm_compute. Qed.

(** C8, the claim as stated fails: the second row of the file has one
    field; the call does not return the dictionary of the two other
    rows, it ends with [IndexError]. *)
Lemma truncated_row_raises_IndexError :
  open_csv sample_fs (py "truncated.csv")
    = Return [ [py "9116462"; py "1073727001"]; [py "9700940"];
               [py "8219384"; py "367049000"] ]
  ∧ extract_imo sample_fs (py "truncated.csv") = ([], Raise IndexError)
  ∧ ¬ ∃ out directory,
        extract_imo sample_fs (py "truncated.csv") = (out, Return directory).
Proof.
  split_and!; [by vm_compute..|]. intros (out & d & H). vm_compute in H. done.
Qed.

(** ** The theorems at the sample inputs *)

(** An element whose only child is an element: no direct text, empty result. *)
Lemma get_text_direct_text_witness :
  direct_text_data (Element (py "skos:altLabel") [Element (py "b") [nl]]) = []
  ∧ get_text (Element (py "skos:altLabel") [Element (py "b") [nl]]) = [].
Proof.
  split; [reflexivity|].
  apply (get_text_direct_text
           (Element (py "skos:altLabel") [Element (py "b") [nl]])).
  reflexivity.
Defined.

(** The sample registry: the header line is stored like any other row. *)
Lemma extract_imo_every_row_witness :
  open_csv sample_fs (py "imo-vessel-codes.csv") = Return imo_vessel_codes
  ∧ Forall (λ row, (2 ≤ length row)%nat) imo_vessel_codes
  ∧ ∃ directory,
      extract_imo sample_fs (py "imo-vessel-codes.csv") = ([], Return directory)
      ∧ directory !! py "imo" = Some (py "mmsi")
      ∧ directory !! py "9700940" = Some (py "1028641360").
Proof.
  assert (Hrows : Forall (λ row, (2 ≤ length row)%nat) imo_vessel_codes).
  { repeat (constructor; [simpl; lia|]). constructor. }
  split; [reflexivity|]. split; [exact Hrows|].
  destruct (extract_imo_every_row sample_fs (py "imo-vessel-codes.csv")
              imo_vessel_codes eq_refl Hrows) as (d & Hd & Hlast & _).
  exists d. split; [exact Hd|]. rewrite !Hlast. split; reflexivity.
Defined.

(** The sample registry: of the two rows of IMO 9116462 the later wins. *)
Lemma extract_imo_last_wins_witness :
  ∃ directory,
    extract_imo sample_fs (py "imo-vessel-codes.csv") = ([], Return directory)
    ∧ directory !! py "9116462" = Some (py "1072678425")
    ∧ directory !! py "9116462" ≠ Some (py "1073727001").
Proof.
  apply (extract_imo_last_wins sample_fs (py "imo-vessel-codes.csv")
           [ [py "imo"; py "mmsi"; py "name"; py "flag"; py "type"] ]
           []
           [ [py "9700940"; py "1028641360"; py "IVQ!PC=NDA  O0  O0"; [];
              py "Cargo"];
             [py "8219384"; py "367049000"; py "2ND LT JOHN P BOBO"; [];
              py "Cargo"] ]
           [py "9116462"; py "1073727001"; py "AEGEANQUE EN"; [];
            py "Passengers Ship"]
           [py "9116462"; py "1072678425"; py "AEGEQNQUE EN"; [];
            py "Passengers Ship"]
           (py "9116462") (py "1073727001") (py "1072678425")).
  - reflexivity.
  - repeat (constructor; [simpl; lia|]). constructor.
  - reflexivity.
  - reflexivity.
  - reflexivity.
  - reflexivity.
  - vm_compute. discriminate.
  - repeat (constructor; [vm_compute; discriminate|]). constructor.
Defined.

(** The registry with a one-field row. *)
Lemma extract_imo_short_row_witness :
  Exists (λ row, (length row < 2)%nat)
    [ [py "9116462"; py "1073727001"]; [py "9700940"];
      [py "8219384"; py "367049000"] ]
  ∧ extract_imo sample_fs (py "truncated.csv") = ([], Raise IndexError).
Proof.
  assert (Hshort : Exists (λ row, (length row < 2)%nat)
            [ [py "9116462"; py "1073727001"]; [py "9700940"];
              [py "8219384"; py "367049000"] ]).
  { apply Exists_cons_tl, Exists_cons_hd. simpl. lia. }
  split; [exact Hshort|].
  exact (extract_imo_short_row sample_fs (py "truncated.csv") _ eq_refl Hshort).
Defined.

(** The sample document: the call ends normally, with [None]. *)
Lemma extract_ship_properties_returns_None_witness :
  extract_ship_properties sample_fs (py "imo-vessel-codes.csv")
    (py "ICES_vessel_sample.xml")
  = ([py "OCL REQUEST"; json_3234], Return PyNone)
  ∧ PyNone = PyNone ∧ ∀ elements, PyNone ≠ PySet elements.
Proof.
  assert (Hrun : extract_ship_properties sample_fs (py "imo-vessel-codes.csv")
                   (py "ICES_vessel_sample.xml")
                 = ([py "OCL REQUEST"; json_3234], Return PyNone))
    by (vm_compute; reflexivity).
  split; [exact Hrun|].
  exact (extract_ship_properties_returns_None sample_fs _ _ _ _ Hrun).
Defined.

(** A file that is not XML, and a file that does not exist. *)
Lemma document_error_is_fatal_witness :
  minidom_parse sample_fs (py "not_xml.xml")
    = Raise (ExpatError (py "syntax error: line 1, column 0"))
  ∧ minidom_parse sample_fs (py "absent.xml")
    = Raise (EnvironmentError (py "absent.xml"))
  ∧ extract_ship_properties sample_fs (py "imo-vessel-codes.csv")
      (py "not_xml.xml")
    = ([], Raise (ExpatError (py "syntax error: line 1, column 0")))
  ∧ extract_ship_properties sample_fs (py "imo-vessel-codes.csv")
      (py "absent.xml")
    = ([], Raise (EnvironmentError (py "absent.xml"))).
Proof.
  split; [reflexivity|]. split; [reflexivity|]. split.
  - eapply document_error_is_fatal; [vm_compute; reflexivity|reflexivity].
  - eapply document_error_is_fatal; [vm_compute; reflexivity|reflexivity].
Defined.

(** * Further properties *)

(** ** [strip] *)

Lemma lstrip_blank_app (ws s : str) :
  forallb isspace ws = true → lstrip (ws ++ s) = lstrip s.
Proof.
  induction ws as [|c ws IH]; simpl; [done|].
  intros [Hc Hws]%andb_prop. rewrite Hc. by apply IH.
Qed.

Lemma lstrip_blank (ws : str) : forallb isspace ws = true → lstrip ws = [].
Proof.
  intros Hws. rewrite <- (app_nil_r ws). by rewrite lstrip_blank_app.
Qed.

Lemma nonempty_snoc {A} (x : A) (l : list A) : ∃ l' y, x :: l = l' ++ [y].
Proof.
  revert x. induction l as [|a l IH]; intros x.
  - by exists [], x.
  - destruct (IH a) as (l' & y & ->). by exists (x :: l'), y.
Qed.

Lemma trimmed_nil : trimmed [].
Proof.
  split; intros c s' H; [done|]. by destruct s'.
Qed.

(** A trimmed string between two runs of white space is what [strip]
    finds. *)
Lemma strip_unique (l m r : str) :
  forallb isspace l = true → forallb isspace r = true → trimmed m →
  strip (l ++ m ++ r) = m.
Proof.
  intros Hl Hr [Hfirst Hlast]. unfold strip. rewrite lstrip_blank_app by done.
  destruct m as [|c m].
  - simpl. by rewrite lstrip_blank.
  - assert (Hc : isspace c = false) by by eapply Hfirst.
    replace (lstrip ((c :: m) ++ r)) with ((c :: m) ++ r)
      by (simpl; by rewrite Hc).
    unfold rstrip. rewrite reverse_app.
    rewrite lstrip_blank_app by by rewrite forallb_reverse.
    destruct (nonempty_snoc c m) as (m' & c' & Hm). rewrite Hm.
    rewrite reverse_app. simpl.
    rewrite (Hlast c' m' Hm).
    by rewrite reverse_cons, reverse_involutive.
Qed.

Lemma strip_idemp (s : str) : strip (strip s) = strip s.
Proof.
  rewrite <- (app_nil_r (strip s)) at 1.
  apply (strip_unique [] (strip s) []); [done..|apply strip_trimmed].
Qed.

Lemma strip_blank_ends (ws1 ws2 s : str) :
  forallb isspace ws1 = true → forallb isspace ws2 = true →
  strip (ws1 ++ s ++ ws2) = strip s.
Proof.
  intros H1 H2. destruct (strip_split s) as (l & r & Hs & Hl & Hr).
  rewrite Hs at 1.
  replace (ws1 ++ (l ++ strip s ++ r) ++ ws2)
    with ((ws1 ++ l) ++ strip s ++ (r ++ ws2))
    by (by rewrite <- !app_assoc).
  apply strip_unique; [| |apply strip_trimmed];
    rewrite forallb_app; by apply andb_true_intro.
Qed.

Lemma strip_nil_iff (s : str) : strip s = [] ↔ forallb isspace s = true.
Proof.
  split.
  - intros Hs. destruct (strip_split s) as (l & r & Heq & Hl & Hr).
    rewrite Hs in Heq. rewrite Heq. simpl.
    rewrite forallb_app. by apply andb_true_intro.
  - intros Hs. rewrite <- (app_nil_r s).
    apply (strip_unique s [] []); [done..|apply trimmed_nil].
Qed.

(** ** [get_text], continued *)

Lemma direct_text_data_app tag (cs1 cs2 : list node) :
  direct_text_data (Element tag (cs1 ++ cs2))
  = direct_text_data (Element tag cs1) ++ direct_text_data (Element tag cs2).
Proof. unfold direct_text_data. simpl. apply omap_app. Qed.

(** X1. Text that the parser has cut into two adjacent text nodes gives
    the same result as the same text in one node. *)
Theorem get_text_fragments (tag : str) (before after : list node) (a b : str) :
  get_text (Element tag (before ++ Text a :: Text b :: after))
  = get_text (Element tag (before ++ Text (a ++ b) :: after)).
Proof.
  rewrite !get_text_eq, !direct_text_data_app.
  change (Text a :: Text b :: after) with ([Text a; Text b] ++ after).
  change (Text (a ++ b) :: after) with ([Text (a ++ b)] ++ after).
  rewrite !direct_text_data_app. unfold join_empty.
  rewrite !concat_app. do 2 f_equal.
  unfold direct_text_data. simpl. by rewrite !app_nil_r.
Qed.

(** X2. The result of [get_text] is the empty string exactly when the
    direct text of the element is nothing but white space (or there is
    none). *)
Theorem get_text_empty_iff_blank (element : node) :
  get_text element = []
  ↔ forallb isspace (join_empty (direct_text_data element)) = true.
Proof. rewrite get_text_eq. apply strip_nil_iff. Qed.

(** X3. White-space text nodes at the start and at the end of an
    element (the line breaks and indentation around its children) do not
    change its text. *)
Theorem get_text_ignores_blank_ends (tag : str) (cs : list node)
    (ws1 ws2 : str) :
  forallb isspace ws1 = true → forallb isspace ws2 = true →
  get_text (Element tag (Text ws1 :: cs ++ [Text ws2]))
  = get_text (Element tag cs).
Proof.
  intros H1 H2. rewrite !get_text_eq.
  change (Text ws1 :: cs ++ [Text ws2]) with ([Text ws1] ++ cs ++ [Text ws2]).
  rewrite !direct_text_data_app. unfold join_empty. rewrite !concat_app.
  unfold direct_text_data at 1 3. simpl. rewrite !app_nil_r.
  by apply strip_blank_ends.
Qed.

(** X4. The text of an element is stable: an element holding that text
    as its only child has the same text. *)
Theorem get_text_stable (tag : str) (element : node) :
  get_text (Element tag [Text (get_text element)]) = get_text element.
Proof.
  rewrite (get_text_eq (Element _ _)). unfold direct_text_data, join_empty.
  simpl. rewrite app_nil_r. rewrite get_text_eq. apply strip_idemp.
Qed.

(** ** [extract_imo], continued *)

Lemma extract_imo_row_silent (directory : gmap str str) (row : list str) :
  (extract_imo_row directory row).1 = [].
Proof. by destruct row as [|imo [|mmsi row]]. Qed.

Lemma extract_imo_loop_silent (rows : list (list str))
    (directory : gmap str str) :
  (for_in rows extract_imo_row directory).1 = [].
Proof.
  revert directory. induction rows as [|row rows IH]; intros directory; [done|].
  simpl. pose proof (extract_imo_row_silent directory row) as Hrow.
  destruct (extract_imo_row directory row) as [out [d|e]]; simpl in *;
    subst out; [|done].
  specialize (IH d). by destruct (for_in rows extract_imo_row d) as [out r].
Qed.

Lemma extract_imo_silent (fs : FileSystem) (imo_filename : str) :
  (extract_imo fs imo_filename).1 = [].
Proof.
  unfold extract_imo. destruct (open_csv fs imo_filename) as [rows|e]; [|done].
  simpl. pose proof (extract_imo_loop_silent rows ∅) as H.
  by destruct (for_in rows extract_imo_row ∅).
Qed.

Lemma extract_imo_Return (fs : FileSystem) (imo_filename : str)
    (rows : list (list str)) :
  open_csv fs imo_filename = Return rows →
  Forall (λ row, (2 ≤ length row)%nat) rows →
  ∃ directory,
    extract_imo fs imo_filename = ([], Return directory)
    ∧ ∀ imo, directory !! imo = last_mmsi imo rows.
Proof.
  intros Hopen Hrows.
  destruct (extract_imo_loop rows ∅ Hrows) as (d & Hloop & Hd).
  exists d. split.
  - unfold extract_imo. rewrite Hopen. unfold lift. simpl. by rewrite Hloop.
  - intros imo. rewrite Hd. by destruct (last_mmsi imo rows).
Qed.

Lemma elem_of_imo_column imo (rows : list (list str)) :
  imo ∈ imo_column rows ↔ ∃ row, row ∈ rows ∧ row !! 0%nat = Some imo.
Proof. apply list_elem_of_omap. Qed.

Lemma last_mmsi_is_Some_iff imo (rows : list (list str)) :
  Forall (λ row, (2 ≤ length row)%nat) rows →
  is_Some (last_mmsi imo rows) ↔ imo ∈ imo_column rows.
Proof.
  intros Hrows. rewrite elem_of_imo_column. split.
  - intros [mmsi (row & Hin & Hk & _)%last_mmsi_Some]. by exists row.
  - intros (row & Hin & Hk). by eapply last_mmsi_is_Some.
Qed.

Lemma length_remove_dups_le (l : list str) :
  (length (remove_dups l) ≤ length l)%nat.
Proof.
  induction l as [|x l IH]; simpl; [done|].
  destruct (decide_rel elem_of x l); simpl; lia.
Qed.

Lemma length_imo_column_le (rows : list (list str)) :
  (length (imo_column rows) ≤ length rows)%nat.
Proof.
  unfold imo_column. induction rows as [|row rows IH]; [done|].
  destruct row as [|imo row]; simpl;
    change (list_omap (list str) str) with (@omap list _ (list str) str); lia.
Qed.

(** With distinct keys, a row decides the value of its key. *)
Lemma last_mmsi_NoDup imo mmsi (rows : list (list str)) (row : list str) :
  NoDup (imo_column rows) →
  row ∈ rows → row !! 0%nat = Some imo → row !! 1%nat = Some mmsi →
  last_mmsi imo rows = Some mmsi.
Proof.
  induction rows as [|r rows IH]; intros Hnd Hin Hk Hv.
  - by apply elem_of_nil in Hin.
  - simpl. apply elem_of_cons in Hin as [<-|Hin].
    + unfold imo_column in Hnd. simpl in Hnd. rewrite Hk in Hnd.
      apply NoDup_cons in Hnd as [Hfresh _].
      rewrite last_mmsi_None.
      * by rewrite bool_decide_eq_true_2.
      * intros r' Hr' Hk'. apply Hfresh. apply elem_of_imo_column. by exists r'.
    + rewrite IH; [done| |done..].
      unfold imo_column in Hnd. simpl in Hnd.
      destruct (r !! 0%nat); [by apply NoDup_cons in Hnd as [_ ?]|done].
Qed.

Lemma last_mmsi_Permutation imo (rows rows' : list (list str)) :
  rows ≡ₚ rows' → NoDup (imo_column rows) →
  last_mmsi imo rows = last_mmsi imo rows'.
Proof.
  intros Hperm Hnd.
  assert (Hnd' : NoDup (imo_column rows')).
  { unfold imo_column. by rewrite <- Hperm. }
  destruct (last_mmsi imo rows) as [v|] eqn:Hl.
  - apply last_mmsi_Some in Hl as (row & Hin & Hk & Hv).
    symmetry. eapply last_mmsi_NoDup; [done| |done..]. by rewrite <- Hperm.
  - destruct (last_mmsi imo rows') as [v'|] eqn:Hl'; [|done].
    apply last_mmsi_Some in Hl' as (row & Hin & Hk & Hv).
    rewrite <- Hperm in Hin.
    by rewrite (last_mmsi_NoDup imo v' rows row) in Hl.
Qed.

Lemma extract_imo_row_take (directory : gmap str str) (row : list str) :
  extract_imo_row directory (take 2 row) = extract_imo_row directory row.
Proof. by destruct row as [|imo [|mmsi row]]. Qed.

Lemma extract_imo_loop_take (rows : list (list str))
    (directory : gmap str str) :
  for_in (take 2 <$> rows) extract_imo_row directory
  = for_in rows extract_imo_row directory.
Proof.
  revert directory. induction rows as [|row rows IH]; intros directory; [done|].
  simpl. rewrite extract_imo_row_take.
  destruct (extract_imo_row directory row) as [out [d|e]]; simpl; [|done].
  by rewrite IH.
Qed.

(** X5. [extract_imo] never writes to the console, whatever the file
    holds; and when the file cannot be opened, the exception of [open]
    is what the call ends with. *)
Theorem extract_imo_is_silent (fs : FileSystem) (imo_filename : str) :
  (extract_imo fs imo_filename).1 = []
  ∧ ∀ e, open_csv fs imo_filename = Raise e →
         extract_imo fs imo_filename = ([], Raise e).
Proof.
  split; [apply extract_imo_silent|].
  intros e He. unfold extract_imo. by rewrite He.
Qed.

(** X6. On a well-formed registry file the dictionary has one entry per
    distinct value of the first column: its size is the number of
    distinct IMO strings, at most the number of rows. *)
Theorem extract_imo_size (fs : FileSystem) (imo_filename : str)
    (rows : list (list str)) :
  open_csv fs imo_filename = Return rows →
  Forall (λ row, (2 ≤ length row)%nat) rows →
  ∃ directory,
    extract_imo fs imo_filename = ([], Return directory)
    ∧ size directory = length (remove_dups (imo_column rows))
    ∧ (size directory ≤ length rows)%nat.
Proof.
  intros Hopen Hrows.
  destruct (extract_imo_Return fs imo_filename rows Hopen Hrows)
    as (d & Hd & Hlast).
  assert (Hsize : size d = length (remove_dups (imo_column rows))).
  { rewrite <- size_dom.
    rewrite <- (size_list_to_set (C:=gset str)) by apply NoDup_remove_dups.
    f_equal. apply set_eq. intros imo.
    rewrite elem_of_dom, Hlast, elem_of_list_to_set, elem_of_remove_dups.
    by apply last_mmsi_is_Some_iff. }
  exists d. split_and!; [done..|]. rewrite Hsize.
  etrans; [apply length_remove_dups_le|apply length_imo_column_le].
Qed.

(** X7. Loading the concatenation of two well-formed registry files
    gives the dictionary of the second file completed by the entries of
    the first one for the keys the second does not have. *)
Theorem extract_imo_concatenation (fs : FileSystem)
    (first second both : str) (rows1 rows2 : list (list str)) :
  open_csv fs first = Return rows1 →
  open_csv fs second = Return rows2 →
  open_csv fs both = Return (rows1 ++ rows2) →
  Forall (λ row, (2 ≤ length row)%nat) rows1 →
  Forall (λ row, (2 ≤ length row)%nat) rows2 →
  ∃ directory1 directory2,
    extract_imo fs first = ([], Return directory1)
    ∧ extract_imo fs second = ([], Return directory2)
    ∧ extract_imo fs both = ([], Return (directory2 ∪ directory1)).
Proof.
  intros H1 H2 H12 Hrows1 Hrows2.
  destruct (extract_imo_Return fs first rows1 H1 Hrows1) as (d1 & Hd1 & Hl1).
  destruct (extract_imo_Return fs second rows2 H2 Hrows2) as (d2 & Hd2 & Hl2).
  destruct (extract_imo_Return fs both (rows1 ++ rows2) H12) as (d & Hd & Hl).
  { by apply Forall_app. }
  exists d1, d2. split_and!; [done..|]. rewrite Hd. do 2 f_equal.
  apply map_eq. intros imo.
  rewrite Hl, last_mmsi_app, lookup_union, Hl1, Hl2.
  by destruct (last_mmsi imo rows2), (last_mmsi imo rows1).
Qed.

(** X8. Only the first two fields of a row are read: a file and the
    same file cut down to its first two columns give the same outcome
    (the same dictionary, or the same exception). *)
Theorem extract_imo_ignores_other_fields (fs : FileSystem)
    (full cut : str) (rows : list (list str)) :
  open_csv fs full = Return rows →
  open_csv fs cut = Return (take 2 <$> rows) →
  extract_imo fs cut = extract_imo fs full.
Proof.
  intros Hfull Hcut. unfold extract_imo. rewrite Hfull, Hcut. unfold lift.
  simpl. by rewrite extract_imo_loop_take.
Qed.

(** X9. When no IMO occurs twice in a well-formed registry file, the
    order of its rows does not matter: any reordering of the rows gives
    the same dictionary. *)
Theorem extract_imo_row_order (fs : FileSystem) (original reordered : str)
    (rows rows' : list (list str)) :
  open_csv fs original = Return rows →
  open_csv fs reordered = Return rows' →
  rows ≡ₚ rows' →
  Forall (λ row, (2 ≤ length row)%nat) rows →
  NoDup (imo_column rows) →
  ∃ directory,
    extract_imo fs original = ([], Return directory)
    ∧ extract_imo fs reordered = ([], Return directory).
Proof.
  intros Hopen Hopen' Hperm Hrows Hnd.
  destruct (extract_imo_Return fs original rows Hopen Hrows) as (d & Hd & Hl).
  destruct (extract_imo_Return fs reordered rows' Hopen') as (d' & Hd' & Hl').
  { by rewrite <- Hperm. }
  exists d. split; [done|]. rewrite Hd'. do 2 f_equal.
  apply map_eq. intros imo. rewrite Hl, Hl'. symmetry.
  by apply last_mmsi_Permutation.
Qed.

(** ** [extract_ship_properties], continued *)

Lemma extract_member_line (member : node) (line : str) :
  concept_line member = Some line →
  ∃ vessel_name,
    extract_member member = ([line], Return (vessel_name, line)).
Proof.
  unfold concept_line, extract_member.
  destruct (getElementsByTagName member (py "skos:prefLabel")) as [|label ?];
    [done|].
  destruct (getElementsByTagName member (py "skos:definition")) as [|def ?];
    [done|].
  intros [= <-]. by exists (get_text label).
Qed.

Lemma extract_member_incomplete (member : node) :
  concept_line member = None →
  extract_member member = ([], Raise IndexError).
Proof.
  unfold concept_line, extract_member.
  destruct (getElementsByTagName member (py "skos:prefLabel")) as [|label ?];
    [done|].
  by destruct (getElementsByTagName member (py "skos:definition")).
Qed.

(** The loop of line 209 over concepts that all have a label and a
    definition, followed by whatever [rest] does. *)
Lemma concepts_loop_app (visited rest : list node) :
  Forall (λ member, is_Some (concept_line member)) visited →
  for_in (visited ++ rest) (λ _ member, run extract_member member in ret tt) tt
  = let '(out, r) :=
      for_in rest (λ _ member, run extract_member member in ret tt) tt in
    (omap concept_line visited ++ out, r).
Proof.
  induction 1 as [|member visited [line Hline] _ IH]; simpl.
  - by destruct (for_in rest _ tt).
  - destruct (extract_member_line member line Hline) as (name & ->).
    simpl. rewrite IH.
    change (list_omap node str) with (@omap list _ node str).
    rewrite Hline. by destruct (for_in rest _ tt).
Qed.

Lemma extract_ship_properties_loop (fs : FileSystem)
    (imo_filename xml_vessel_filename : str) (directory : gmap str str)
    (dom : node) :
  extract_imo fs imo_filename = ([], Return directory) →
  minidom_parse fs xml_vessel_filename = Return dom →
  extract_ship_properties fs imo_filename xml_vessel_filename
  = let '(out, r) :=
      for_in (getElementsByTagName dom (py "skos:Concept"))
             (λ _ member, run extract_member member in ret tt) tt in
    (out, match r with Return _ => Return PyNone | Raise e => Raise e end).
Proof.
  intros Himo Hparse. unfold extract_ship_properties.
  rewrite Himo, Hparse. simpl.
  destruct (for_in _ _ tt) as [out [[]|e]]; simpl; [|done].
  by rewrite app_nil_r.
Qed.

(** X10. When the registry loads, the document parses and every
    [skos:Concept] element of the document, at whatever depth, has a
    [skos:prefLabel] and a [skos:definition] below it, the call ends
    normally with [None] and has written one line per concept, in
    document order: the text of the concept's first definition. *)
Theorem extract_ship_properties_prints_each_definition (fs : FileSystem)
    (imo_filename xml_vessel_filename : str) (directory : gmap str str)
    (dom : node) :
  extract_imo fs imo_filename = ([], Return directory) →
  minidom_parse fs xml_vessel_filename = Return dom →
  Forall (λ member, is_Some (concept_line member))
         (filter (λ x, tag_matches (py "skos:Concept") x) (descendants dom)) →
  extract_ship_properties fs imo_filename xml_vessel_filename
  = (omap concept_line
       (filter (λ x, tag_matches (py "skos:Concept") x) (descendants dom)),
     Return PyNone).
Proof.
  intros Himo Hparse Hall.
  rewrite (extract_ship_properties_loop _ _ _ _ _ Himo Hparse).
  rewrite getElementsByTagName_filter.
  rewrite <- (app_nil_r (filter _ (descendants dom))) at 1.
  rewrite (concepts_loop_app _ [] Hall). simpl. by rewrite app_nil_r.
Qed.

(** X11. The first concept, in document order, that lacks a
    [skos:prefLabel] or a [skos:definition] ends the call with
    [IndexError]: the lines of the concepts before it have been written,
    the concepts after it are not visited. *)
Theorem extract_ship_properties_stops_at_incomplete_concept
    (fs : FileSystem) (imo_filename xml_vessel_filename : str)
    (directory : gmap str str) (dom : node)
    (visited rest : list node) (member : node) :
  extract_imo fs imo_filename = ([], Return directory) →
  minidom_parse fs xml_vessel_filename = Return dom →
  getElementsByTagName dom (py "skos:Concept") = visited ++ member :: rest →
  Forall (λ member, is_Some (concept_line member)) visited →
  concept_line member = None →
  extract_ship_properties fs imo_filename xml_vessel_filename
  = (omap concept_line visited, Raise IndexError).
Proof.
  intros Himo Hparse Hconcepts Hvisited Hmember.
  rewrite (extract_ship_properties_loop _ _ _ _ _ Himo Hparse).
  rewrite Hconcepts, (concepts_loop_app _ _ Hvisited). simpl.
  rewrite (extract_member_incomplete _ Hmember). simpl.
  by rewrite app_nil_r.
Qed.

(** X12. The content of the registry has no influence on the call: with
    any two registries that load, the same document gives the same
    console output and the same result. *)
Theorem extract_ship_properties_ignores_registry (fs1 fs2 : FileSystem)
    (imo_filename1 imo_filename2 xml_vessel_filename : str)
    (out1 out2 : list str) (directory1 directory2 : gmap str str) :
  extract_imo fs1 imo_filename1 = (out1, Return directory1) →
  extract_imo fs2 imo_filename2 = (out2, Return directory2) →
  minidom_parse fs1 xml_vessel_filename = minidom_parse fs2 xml_vessel_filename →
  extract_ship_properties fs1 imo_filename1 xml_vessel_filename
  = extract_ship_properties fs2 imo_filename2 xml_vessel_filename.
Proof.
  intros H1 H2 Hdoc.
  pose proof (extract_imo_silent fs1 imo_filename1) as Hs1.
  pose proof (extract_imo_silent fs2 imo_filename2) as Hs2.
  rewrite H1 in Hs1. rewrite H2 in Hs2. simpl in Hs1, Hs2. subst out1 out2.
  unfold extract_ship_properties. rewrite H1, H2, Hdoc. done.
Qed.

(** X13. A registry that does not load ends the call with the exception
    of [extract_imo], whatever the document is: the document is not
    parsed and nothing is written. *)
Theorem registry_error_is_fatal (fs : FileSystem)
    (imo_filename xml_vessel_filename : str) (out : list str) (e : exn) :
  extract_imo fs imo_filename = (out, Raise e) →
  extract_ship_properties fs imo_filename xml_vessel_filename
  = ([], Raise e).
Proof.
  intros Himo. pose proof (extract_imo_silent fs imo_filename) as Hs.
  rewrite Himo in Hs. simpl in Hs. subst out.
  unfold extract_ship_properties. by rewrite Himo.
Qed.

(** ** The further properties at sample inputs *)

(** An element with line breaks around a child element: blank direct
    text, empty result. *)
Lemma get_text_empty_iff_blank_witness :
  forallb isspace
    (join_empty (direct_text_data
       (Element (py "skos:member") [nl; Element (py "b") [Text (py "x")]; nl])))
  = true
  ∧ get_text (Element (py "skos:member")
                [nl; Element (py "b") [Text (py "x")]; nl]) = [].
Proof.
  split; [reflexivity|].
  apply (get_text_empty_iff_blank
           (Element (py "skos:member")
              [nl; Element (py "b") [Text (py "x")]; nl])).
  reflexivity.
Defined.

(** A label with a line break and indentation before and after it. *)
Lemma get_text_ignores_blank_ends_witness :
  forallb isspace [10; 32; 32] = true ∧ forallb isspace [10; 9] = true
  ∧ get_text (Element (py "skos:prefLabel")
                (Text [10; 32; 32] :: [Text (py "ANL Echuca")] ++ [Text [10; 9]]))
    = get_text (Element (py "skos:prefLabel") [Text (py "ANL Echuca")]).
Proof.
  split; [reflexivity|]. split; [reflexivity|].
  apply (get_text_ignores_blank_ends (py "skos:prefLabel")
           [Text (py "ANL Echuca")] [10; 32; 32] [10; 9]); reflexivity.
Defined.

(** A registry file that does not exist. *)
Lemma extract_imo_is_silent_witness :
  open_csv lab_fs (py "absent.csv") = Raise (EnvironmentError (py "absent.csv"))
  ∧ extract_imo lab_fs (py "absent.csv")
    = ([], Raise (EnvironmentError (py "absent.csv"))).
Proof.
  split; [reflexivity|].
  apply (extract_imo_is_silent lab_fs (py "absent.csv")). reflexivity.
Defined.

Lemma codes_january_rows : Forall (λ row, (2 ≤ length row)%nat) codes_january.
Proof. repeat (constructor; [simpl; lia|]). constructor. Defined.

Lemma codes_february_rows : Forall (λ row, (2 ≤ length row)%nat) codes_february.
Proof. repeat (constructor; [simpl; lia|]). constructor. Defined.

Lemma codes_both_rows :
  Forall (λ row, (2 ≤ length row)%nat) (codes_january ++ codes_february).
Proof. repeat (constructor; [simpl; lia|]). constructor. Defined.

(** Four rows, three distinct IMO numbers. *)
Lemma extract_imo_size_witness :
  ∃ directory,
    extract_imo lab_fs (py "both.csv") = ([], Return directory)
    ∧ size directory
      = length (remove_dups (imo_column (codes_january ++ codes_february)))
    ∧ (size directory ≤ length (codes_january ++ codes_february))%nat.
Proof.
  exact (extract_imo_size lab_fs (py "both.csv")
           (codes_january ++ codes_february) eq_refl codes_both_rows).
Defined.

(** Two monthly files and their concatenation. *)
Lemma extract_imo_concatenation_witness :
  ∃ directory1 directory2,
    extract_imo lab_fs (py "january.csv") = ([], Return directory1)
    ∧ extract_imo lab_fs (py "february.csv") = ([], Return directory2)
    ∧ extract_imo lab_fs (py "both.csv")
      = ([], Return (directory2 ∪ directory1)).
Proof.
  exact (extract_imo_concatenation lab_fs (py "january.csv")
           (py "february.csv") (py "both.csv") codes_january codes_february
           eq_refl eq_refl eq_refl codes_january_rows codes_february_rows).
Defined.

(** A three-column file and its first two columns. *)
Lemma extract_imo_ignores_other_fields_witness :
  extract_imo lab_fs (py "february_two_columns.csv")
  = extract_imo lab_fs (py "february.csv").
Proof.
  exact (extract_imo_ignores_other_fields lab_fs (py "february.csv")
           (py "february_two_columns.csv") codes_february eq_refl eq_refl).
Defined.

(** A file without repeated IMO, read top-down and bottom-up. *)
Lemma extract_imo_row_order_witness :
  ∃ directory,
    extract_imo lab_fs (py "february.csv") = ([], Return directory)
    ∧ extract_imo lab_fs (py "february_reversed.csv") = ([], Return directory).
Proof.
  apply (extract_imo_row_order lab_fs (py "february.csv")
           (py "february_reversed.csv") codes_february (reverse codes_february)).
  - reflexivity.
  - reflexivity.
  - symmetry. apply reverse_Permutation.
  - exact codes_february_rows.
  - change (imo_column codes_february) with [py "9116462"; py "8219384"].
    apply NoDup_cons. split; [|apply NoDup_singleton].
    intros H%list_elem_of_singleton. vm_compute in H. discriminate.
Defined.

(** The sample document: both concepts are complete, two lines. *)
Lemma extract_ship_properties_prints_each_definition_witness :
  extract_ship_properties sample_fs (py "imo-vessel-codes.csv")
    (py "ICES_vessel_sample.xml")
  = (omap concept_line
       (filter (λ x, tag_matches (py "skos:Concept") x)
               (descendants ICES_vessel_sample)),
     Return PyNone).
Proof.
  eapply extract_ship_properties_prints_each_definition.
  - vm_compute. reflexivity.
  - reflexivity.
  - change (filter (λ x, tag_matches (py "skos:Concept") x)
                   (descendants ICES_vessel_sample))
      with [concept_90UW; concept_3234].
    repeat (constructor; [by eexists|]). constructor.
Defined.

(** A document whose second concept of three has no definition. *)
Lemma extract_ship_properties_stops_at_incomplete_concept_witness :
  extract_ship_properties lab_fs (py "february.csv") (py "incomplete.xml")
  = (omap concept_line [concept_90UW], Raise IndexError).
Proof.
  eapply (extract_ship_properties_stops_at_incomplete_concept lab_fs
            (py "february.csv") (py "incomplete.xml") _ _
            [concept_90UW] [concept_3234] concept_bare).
  - vm_compute. reflexivity.
  - reflexivity.
  - reflexivity.
  - repeat (constructor; [by eexists|]). constructor.
  - reflexivity.
Defined.

(** The sample document with two different registries. *)
Lemma extract_ship_properties_ignores_registry_witness :
  extract_ship_properties sample_fs (py "imo-vessel-codes.csv")
    (py "ICES_vessel_sample.xml")
  = extract_ship_properties lab_fs (py "january.csv")
      (py "ICES_vessel_sample.xml").
Proof.
  eapply extract_ship_properties_ignores_registry.
  - vm_compute. reflexivity.
  - vm_compute. reflexivity.
  - reflexivity.
Defined.

(** A registry with a one-field row, and the sample document. *)
Lemma registry_error_is_fatal_witness :
  extract_ship_properties lab_fs (py "truncated.csv")
    (py "ICES_vessel_sample.xml")
  = ([], Raise IndexError).
Proof.
  eapply registry_error_is_fatal. vm_compute. reflexivity.
Defined.

(** * Positions in the document, and the inputs the code does not guard *)

Lemma node_at_app (n m : node) (path path' : list nat) :
  node_at n path = Some m → node_at n (path ++ path') = node_at m path'.
Proof.
  revert n. induction path as [|i path IH]; intros n; simpl.
  - by intros [= ->].
  - destruct (childNodes n !! i) as [child|]; [apply IH|done].
Qed.

Lemma subtree_node_at (n x : node) :
  x ∈ subtree n → ∃ path, node_at n path = Some x.
Proof.
  revert x. induction n as [n IH] using node_children_ind. intros x.
  rewrite subtree_children. intros [->|Hx]%elem_of_cons.
  - by exists [].
  - apply list_elem_of_In, in_flat_map in Hx as (child & Hchild & Hx).
    apply list_elem_of_In in Hchild, Hx.
    rewrite Forall_forall in IH.
    destruct (IH child Hchild x Hx) as (path & Hpath).
    apply list_elem_of_lookup_1 in Hchild as (i & Hi).
    exists (i :: path). simpl. by rewrite Hi.
Qed.

(** A descendant sits at a position strictly below the node. *)
Lemma descendants_node_at (n x : node) :
  x ∈ descendants n → ∃ path, path ≠ [] ∧ node_at n path = Some x.
Proof.
  unfold descendants.
  intros (child & Hchild & Hx)%list_elem_of_In%in_flat_map.
  apply list_elem_of_In in Hchild, Hx.
  destruct (subtree_node_at child x Hx) as (path & Hpath).
  apply list_elem_of_lookup_1 in Hchild as (i & Hi).
  exists (i :: path). split; [done|]. simpl. by rewrite Hi.
Qed.

(** C5. On a document that parses, [extract_ship_properties] is the
    loading of the registry followed by one run of the loop body per
    element found by [getElementsByTagName "skos:Concept"] on the
    document. Each node so visited is a [skos:Concept] element at some
    position below the document root, and whenever the loop body ends
    normally for it, the value of [vessel_name] is the text of a
    [skos:prefLabel] element located strictly below that concept's
    position in the document: the first one among the concept's
    descendants. A [skos:prefLabel] placed elsewhere (a child of the
    enclosing collection) is at no such position and is not read. *)
Theorem vessel_name_scoped_to_concept (fs : FileSystem)
    (imo_filename xml_vessel_filename : str) (dom : node) :
  minidom_parse fs xml_vessel_filename = Return dom →
  extract_ship_properties fs imo_filename xml_vessel_filename
  = (let* dictionary := extract_imo fs imo_filename in
     run for_in (getElementsByTagName dom (py "skos:Concept"))
                (λ _ member, run extract_member member in ret tt) tt in
     ret PyNone)
  ∧ ∀ member,
      member ∈ getElementsByTagName dom (py "skos:Concept") →
      ∃ position,
        position ≠ [] ∧ node_at dom position = Some member
        ∧ (∃ cs, member = Element (py "skos:Concept") cs)
        ∧ ∀ out vessel_name definition,
            extract_member member = (out, Return (vessel_name, definition)) →
            ∃ label below,
              below ≠ [] ∧ node_at dom (position ++ below) = Some label
              ∧ (∃ cs, label = Element (py "skos:prefLabel") cs)
              ∧ head (filter (λ x, tag_matches (py "skos:prefLabel") x)
                             (descendants member)) = Some label
              ∧ vessel_name = get_text label.
Proof.
  intros Hparse. split.
  - unfold extract_ship_properties. rewrite Hparse.
    destruct (extract_imo fs imo_filename) as [out0 [directory|e]]; [|done].
    simpl. by destruct (for_in _ _ tt) as [out [[]|e]].
  - intros member Hin. rewrite getElementsByTagName_filter in Hin.
    apply list_elem_of_filter in Hin as [Htag Hdesc].
    destruct (descendants_node_at dom member Hdesc) as (position & Hne & Hpos).
    exists position. split_and!; [done|done| |].
    + apply tag_matches_Element; [by vm_compute|]. by apply Is_true_true.
    + intros out vessel_name definition Hrun.
      destruct (extract_member_own_label member out vessel_name definition Hrun)
        as (label & others & Hfilter & Hlabel & Helement & Hname).
      destruct (descendants_node_at member label Hlabel)
        as (below & Hbelow & Hat).
      exists label, below. split_and!; [done| |done| |done].
      * by rewrite (node_at_app dom member position below Hpos).
      * by rewrite Hfilter.
Qed.

(** The sample document: the second concept is visited, and its name is
    the text of the label found below it. *)
Lemma vessel_name_scoped_to_concept_witness :
  minidom_parse sample_fs (py "ICES_vessel_sample.xml")
    = Return ICES_vessel_sample
  ∧ concept_3234 ∈ getElementsByTagName ICES_vessel_sample (py "skos:Concept")
  ∧ ∃ position label below,
      node_at ICES_vessel_sample position = Some concept_3234
      ∧ below ≠ []
      ∧ node_at ICES_vessel_sample (position ++ below) = Some label
      ∧ (∃ cs, label = Element (py "skos:prefLabel") cs)
      ∧ py "2nd Lt. John P.Bobo" = get_text label.
Proof.
  assert (Hin : concept_3234
                ∈ getElementsByTagName ICES_vessel_sample (py "skos:Concept")).
  { change (getElementsByTagName ICES_vessel_sample (py "skos:Concept"))
      with [concept_90UW; concept_3234].
    right. left. }
  split; [reflexivity|]. split; [exact Hin|].
  destruct (vessel_name_scoped_to_concept sample_fs (py "imo-vessel-codes.csv")
              (py "ICES_vessel_sample.xml") ICES_vessel_sample eq_refl)
    as [_ Hconcepts].
  destruct (Hconcepts concept_3234 Hin) as (position & _ & Hpos & _ & Hname).
  destruct (Hname [json_3234] (py "2nd Lt. John P.Bobo") json_3234 eq_refl)
    as (label & below & Hbelow & Hat & Helement & _ & Htext).
  exists position, label, below. repeat split; assumption.
Defined.

(** C4. With a registry that loads and a document that is not
    well-formed, the call ends with the bare [ExpatError] of the parse
    of line 204, which the [try] of lines 205-208 does not cover: no
    report is printed, and two different files that stop the parser at
    the same place end the call in the same way, so the failure does
    not tell which file it is about. *)
Theorem malformed_document_error_is_bare :
  extract_ship_properties damaged_fs (py "imo-vessel-codes.csv")
    (py "not_xml.xml")
  = ([], Raise (ExpatError (py "syntax error: line 1, column 0")))
  ∧ extract_ship_properties damaged_fs (py "imo-vessel-codes.csv")
      (py "also_not_xml.xml")
    = ([], Raise (ExpatError (py "syntax error: line 1, column 0"))).
Proof. split; by vm_compute. Qed.

(** C3, the claim as stated fails: the file has two rows with the same
    IMO and different MMSIs, then an empty row; no dictionary is
    returned, the call ends with [IndexError]. *)
Lemma duplicate_rows_then_blank_line :
  open_csv damaged_fs (py "duplicate_then_blank.csv")
    = Return [ [py "9116462"; py "1073727001"];
               [py "9116462"; py "1072678425"]; [] ]
  ∧ extract_imo damaged_fs (py "duplicate_then_blank.csv")
    = ([], Raise IndexError)
  ∧ ¬ ∃ out directory,
        extract_imo damaged_fs (py "duplicate_then_blank.csv")
        = (out, Return directory).
Proof.
  split_and!; [by vm_compute..|]. intros (out & d & H). vm_compute in H. done.
Qed.

(** C7, the claim as stated fails: the second of the three rows is
    empty; the pass stops there with [IndexError] and no dictionary is
    returned, although the first row has been read. *)
Lemma blank_line_gives_no_mapping :
  open_csv damaged_fs (py "blank_line.csv")
    = Return [ [py "9116462"; py "1073727001"]; [];
               [py "9700940"; py "1028641360"] ]
  ∧ extract_imo damaged_fs (py "blank_line.csv") = ([], Raise IndexError)
  ∧ ¬ ∃ out directory,
        extract_imo damaged_fs (py "blank_line.csv") = (out, Return directory).
Proof.
  split_and!; [by vm_compute..|]. intros (out & d & H). vm_compute in H. done.
Qed.
